(** * go-mongoid: persistence and change tracking of a document record

    A shallow embedding of [document_persistable.go] (package [mongoid]):
    the methods [IsPersisted], [IsChanged], [Changes], [Was], [Save],
    [saveByUpdate], [saveByInsert] and [getMongoDriverCollectionRef] of
    [*Base].

    The methods run in a small state-and-outcome monad over a [World]
    holding the receiver, the backing store, the live cancellation contexts
    and the trace of observable events.  A computation either returns to its
    caller, terminates the process ([log.Fatal]) or panics ([log.Panic],
    nil dereference). *)

From Stdlib Require Import ZArith String List.
From stdpp Require Import gmap strings list fin_maps.

#[local] Set Warnings "-register-all".
#[local] Open Scope string_scope.

(** ** BSON values and documents *)

(** Modelled from the spec: the identity type of the store.  [ObjectID] is
    the driver's 12-byte object id (declared outside this file); it is kept
    as the list of its bytes. *)
Definition ObjectID : Type := list Byte.byte.

#[global] Instance byte_eq_dec : EqDecision Byte.byte := Byte.byte_eq_dec.

(** Modelled from the spec: [ZeroObjectID()] is the store's zero/sentinel
    identity value, the object id whose twelve bytes are all zero. *)
Definition ZeroObjectID : ObjectID := replicate 12 Byte.x00.

(** The values an [interface{}] entry of a BSON document can hold.  [VNil]
    is the nil interface value; a nested document is again a Go map. *)
Inductive Value : Type :=
| VNil
| VBool (b : bool)
| VInt (n : Z)
| VString (s : string)
| VObjectID (o : ObjectID)
| VDocument (d : gmap string Value)
| VArray (l : list Value).

(** [BsonDocument] is a Go map from field path to [interface{}]. *)
Abbreviation BsonDocument := (gmap string Value).

Fixpoint Value_eq_dec (x y : Value) {struct x} : Decision (x = y).
Proof.
  refine (
    match x, y with
    | VNil, VNil => left _
    | VBool a, VBool b => cast_if (decide (a = b))
    | VInt a, VInt b => cast_if (decide (a = b))
    | VString a, VString b => cast_if (decide (a = b))
    | VObjectID a, VObjectID b => cast_if (decide (a = b))
    | VDocument a, VDocument b =>
        cast_if (@decide (a = b) (@gmap_eq_dec _ _ _ _ Value_eq_dec a b))
    | VArray a, VArray b =>
        cast_if (@decide (a = b) (@list_eq_dec _ Value_eq_dec a b))
    | _, _ => right _
    end); abstract congruence.
Defined.

#[global] Instance Value_eq : EqDecision Value := Value_eq_dec.

(** ** Errors, outcomes and events *)

(** A Go [error] value, identified by its message; [option error] is an
    [error] that may be [nil]. *)
Definition error : Type := string.

Inductive PanicValue : Type :=
| PanicError (e : error)      (* panic(err) raised by log.Panic *)
| PanicMessage (msg : string) (* panic raised by log.Panicf *)
| PanicNilDeref.              (* runtime error: nil pointer dereference *)

(** How a call ends: it returns to its caller, the process exits, or a
    panic unwinds the stack. *)
Inductive outcome (A : Type) : Type :=
| Returned (a : A)
| Exited (code : Z)
| Panicked (p : PanicValue).
Arguments Returned {A} a.
Arguments Exited {A} code.
Arguments Panicked {A} p.

Inductive Level : Type := DEBUG | ERROR | FATAL | PANIC.

(** The target of a store operation, as resolved from the model. *)
Record CollectionRef : Type := mkCollectionRef {
  ref_dbName : string;
  ref_collectionName : string
}.

(** A context handle, as handed out by [context.WithTimeout]. *)
Definition Context : Type := nat.

Inductive Event : Type :=
| EvLog (lvl : Level) (msg : string)
| EvWithTimeout (ctx : Context) (timeout : Z)
| EvCancel (ctx : Context)
| EvInsertOne (coll : CollectionRef) (ctx : Context) (doc : BsonDocument).

(** [time.Second], in nanoseconds. *)
Definition Second : Z := 1000000000.

(** The driver's [*mongo.InsertOneResult]. *)
Record InsertOneResult : Type := mkInsertOneResult {
  InsertedID : Value
}.

(** ** The collaborators of the persistence core *)

(** The record's schema, taken as a parameter: its field values, their
    encoding and the field accessor, all declared outside this file.  As the
    spec has it, [ToBson] (the codec's [encode]) is a deterministic, total,
    pure function of the field values that builds a fresh document, and
    [SetField] acts on the field values and reports a rejected path or value
    as an error. *)
Class Schema : Type := {
  Fields : Type;
  ToBson : Fields → BsonDocument;
  SetField : string → Value → Fields → Fields * option error
}.

(** The store client, taken as a parameter: [InsertOne] answers with the
    driver's pair of a result pointer and an error, either of which may be
    nil, and moves the store to its next state. *)
Class StoreClient : Type := {
  Store : Type;
  InsertOne : CollectionRef → Context → BsonDocument → Store →
              (option InsertOneResult * option error) * Store
}.

(** The model descriptor of a document, as far as this file reads it. *)
Record ModelType : Type := mkModelType {
  GetDatabaseName : string;
  GetCollectionName : string
}.

(** ** Change tracking *)

(** Modelled from the spec: a path is unset when it is absent or holds an
    explicit null; both collapse for diffing. *)
Definition unsetToNil (o : option Value) : Value := default VNil o.

(** Modelled from the spec: [makeBsonDocumentDiff previous current] (its
    body is outside this file).  For every path of either snapshot the two
    values are compared structurally; a differing path is emitted with the
    new-side value, or with nil when the new side lacks it; a path unset on
    both sides is never emitted. *)
Definition diffEntry (p c : option Value) : option Value :=
  if decide (unsetToNil p = unsetToNil c) then None else Some (unsetToNil c).

Definition makeBsonDocumentDiff (previous current : BsonDocument) : BsonDocument :=
  merge diffEntry previous current.

(** ** The world and the monad of method calls *)

Section Persistable.
Context `{schema : Schema} `{client : StoreClient}.

(** Modelled from the spec: the struct [Base] is declared outside this
    file.  It carries the persisted flag, the cached previous snapshot, the
    live field values and the model descriptor that [Model()] hands out. *)
Record Base : Type := mkBase {
  persisted : bool;
  previousValue : BsonDocument;
  fields : Fields;
  Model : ModelType
}.

Record World : Type := mkWorld {
  doc : Base;              (* the receiver [*d] *)
  store : Store;           (* the backing store behind the client *)
  live : list Context;     (* contexts acquired and not yet released *)
  nextContext : Context;   (* the next fresh context handle *)
  trace : list Event       (* what the process did so far, oldest first *)
}.

Definition M (A : Type) : Type := World → outcome A * World.

#[global] Instance M_ret : MRet M := λ A a w, (Returned a, w).

#[global] Instance M_bind : MBind M := λ A B f m w,
  match m w with
  | (Returned a, w') => f a w'
  | (Exited c, w') => (Exited c, w')
  | (Panicked p, w') => (Panicked p, w')
  end.

Definition emit (e : Event) : M unit := λ w,
  (Returned tt,
   mkWorld (doc w) (store w) (live w) (nextContext w) (trace w ++ [e])).

Definition getDoc : M Base := λ w, (Returned (doc w), w).

Definition putDoc (d : Base) : M unit := λ w,
  (Returned tt, mkWorld d (store w) (live w) (nextContext w) (trace w)).

Definition exit {A} (code : Z) : M A := λ w, (Exited code, w).

Definition panic {A} (p : PanicValue) : M A := λ w, (Panicked p, w).

(** *** Package [mongoid/log] *)

(** Modelled from the spec: the logging package is outside this file.
    [log.Debug] writes a line and returns. *)
Definition log_Debug (msg : string) : M unit := emit (EvLog DEBUG msg).

(** Modelled from the spec: [log.Error] writes a line and returns. *)
Definition log_Error (msg : string) : M unit := emit (EvLog ERROR msg).

(** Modelled from the spec: [log.Fatal] writes a line and terminates the
    process (the crash/fatal signal), with exit status 1. *)
Definition log_Fatal (msg : string) : M unit :=
  emit (EvLog FATAL msg);; exit 1.

(** Modelled from the spec: [log.Panic] writes a line and panics with its
    argument. *)
Definition log_Panic (e : error) : M unit :=
  emit (EvLog PANIC e);; panic (PanicError e).

(** Modelled from the spec: [log.Panicf] writes the formatted line and
    panics with it. *)
Definition log_Panicf (msg : string) : M unit :=
  emit (EvLog PANIC msg);; panic (PanicMessage msg).

(** *** Package [context] *)

Definition cancel (ctx : Context) : M unit := λ w,
  (Returned tt,
   mkWorld (doc w) (store w) (filter (λ c, c ≠ ctx) (live w))
           (nextContext w) (trace w ++ [EvCancel ctx])).

(** [context.WithTimeout(context.Background(), timeout)]: a fresh context
    becomes live, and the call hands back the context together with the
    function that releases it. *)
Definition context_WithTimeout (timeout : Z) : M (Context * M unit) := λ w,
  let ctx := nextContext w in
  (Returned (ctx, cancel ctx),
   mkWorld (doc w) (store w) (ctx :: live w) (S ctx)
           (trace w ++ [EvWithTimeout ctx timeout])).

(** *** The store client and the field accessor *)

(** [collection.InsertOne(ctx, document)]. *)
Definition collection_InsertOne (coll : CollectionRef) (ctx : Context)
    (document : BsonDocument) : M (option InsertOneResult * option error) :=
  λ w, let '(r, st) := InsertOne coll ctx document (store w) in
       (Returned r,
        mkWorld (doc w) st (live w) (nextContext w)
                (trace w ++ [EvInsertOne coll ctx document])).

(** [d.ToBson()]. *)
Definition d_ToBson : M BsonDocument :=
  d ← getDoc; mret (ToBson (fields d)).

(** [d.SetField(fieldPath, value)]. *)
Definition d_SetField (fieldPath : string) (value : Value) : M (option error) :=
  d ← getDoc;
  let '(f, err) := SetField fieldPath value (fields d) in
  putDoc (mkBase (persisted d) (previousValue d) f (Model d));;
  mret err.

(** Modelled from the spec: [refreshPreviousValueBSON] (its body is outside
    this file) recomputes the previous snapshot as the encoding of the
    current fields. *)
Definition refreshPreviousValueBSON : M unit :=
  d ← getDoc;
  putDoc (mkBase (persisted d) (ToBson (fields d)) (fields d) (Model d)).

(** ** document_persistable.go *)

Definition IsPersisted : M bool :=
  log_Debug "Base.IsPersisted()";;
  d ← getDoc;
  mret (persisted d).

Definition Changes : M BsonDocument :=
  log_Debug "Base.Changes()";;
  currentBson ← d_ToBson;
  d ← getDoc;
  let previousBson := previousValue d in
  let diffBson := makeBsonDocumentDiff previousBson currentBson in
  mret diffBson.

Definition IsChanged : M bool :=
  log_Debug "Base.IsChanged()";;
  changes ← Changes;
  if decide (0 < size changes) then mret true else mret false.

Definition Was (fieldPath : string) : M (Value * bool) :=
  log_Panicf ("NYI -Base.Was_(" ++ fieldPath ++ ")");;
  mret (VNil, false).

Definition saveByUpdate : M (option error) :=
  log_Debug "saveByUpdate()";;
  log_Fatal "NYI Save() - PERSISTED";;
  mret None.

Definition getMongoDriverCollectionRef : M CollectionRef :=
  d ← getDoc;
  let dModel := Model d in
  let dbName := GetDatabaseName dModel in
  let collectionName := GetCollectionName dModel in
  mret (mkCollectionRef dbName collectionName).

(** Lines 83-92 of [saveByInsert]: a root [_id] entry whose dynamic type is
    [ObjectID] and whose value is the zero object id is deleted from the
    outgoing document. *)
Definition dropZeroRootID (insertBson : BsonDocument) : BsonDocument :=
  match insertBson !! "_id" with
  | Some idObjInterface =>
      match idObjInterface with
      | VObjectID objectID =>
          if decide (objectID = ZeroObjectID)
          then delete "_id" insertBson
          else insertBson
      | _ => insertBson
      end
  | None => insertBson
  end.

Definition saveByInsert : M (option error) :=
  log_Debug "saveByInsert()";;
  collection ← getMongoDriverCollectionRef;
  '(ctx, _) ← context_WithTimeout (5 * Second);
  insertBson ← d_ToBson;
  let insertBson := dropZeroRootID insertBson in
  '(res, err) ← collection_InsertOne collection ctx insertBson;
  match err with
  | Some e => log_Fatal e
  | None => mret tt
  end;;
  id ← match res with
       | Some r => mret (InsertedID r)
       | None => panic PanicNilDeref
       end;
  err ← d_SetField "_id" id;
  match err with
  | Some e => log_Error e;; log_Panic e
  | None => mret tt
  end;;
  d ← getDoc;
  putDoc (mkBase true (previousValue d) (fields d) (Model d));;
  refreshPreviousValueBSON;;
  mret None.

Definition Save : M (option error) :=
  log_Debug "Base.Save()";;
  IsPersisted ≫= λ isPersisted : bool,
  if isPersisted then saveByUpdate else saveByInsert.

(** *** Vocabulary of the statements *)

(** The world in which [Save] hands over to one of its two paths: only the
    two debug lines of [Save] and [IsPersisted] were written. *)
Definition dispatched (w : World) : World :=
  mkWorld (doc w) (store w) (live w) (nextContext w)
          (trace w ++ [EvLog DEBUG "Base.Save()";
                       EvLog DEBUG "Base.IsPersisted()"]).

(** The collection that the model of the receiver resolves to. *)
Definition targetCollection (w : World) : CollectionRef :=
  mkCollectionRef (GetDatabaseName (Model (doc w)))
                  (GetCollectionName (Model (doc w))).

(** The document that the insert path sends for the receiver of [w]. *)
Definition outgoingDocument (w : World) : BsonDocument :=
  dropZeroRootID (ToBson (fields (doc w))).

(** The answer of the store to the insert that [Save] issues from [w]. *)
Definition insertReply (w : World) :
    (option InsertOneResult * option error) * Store :=
  InsertOne (targetCollection w) (nextContext w) (outgoingDocument w) (store w).

(** The answer of the field accessor to writing [id] back into [_id]. *)
Definition writebackReply (w : World) (id : Value) : Fields * option error :=
  SetField "_id" id (fields (doc w)).

(** The world right after the store answered the insert with state [st]. *)
Definition inserted (w : World) (st : Store) : World :=
  mkWorld (doc w) st (nextContext w :: live w) (S (nextContext w))
          (trace w ++ [EvLog DEBUG "saveByInsert()";
                       EvWithTimeout (nextContext w) (5 * Second);
                       EvInsertOne (targetCollection w) (nextContext w)
                                   (outgoingDocument w)]).

Definition withDoc (d : Base) (w : World) : World :=
  mkWorld d (store w) (live w) (nextContext w) (trace w).

Definition logged (es : list Event) (w : World) : World :=
  mkWorld (doc w) (store w) (live w) (nextContext w) (trace w ++ es).

(** Two worlds in which [Save] ends the same way: with the same outcome and
    with the same record, store and live contexts. *)
Definition sameSave (w1 w2 : World) : Prop :=
  (Save w1).1 = (Save w2).1 ∧
  doc (Save w1).2 = doc (Save w2).2 ∧
  store (Save w1).2 = store (Save w2).2 ∧
  live (Save w1).2 = live (Save w2).2.

(** The four ways in which the insert path ends. *)
Inductive insertExit (w : World) : outcome (option error) → World → Prop :=
| exit_store_error res e st :
    insertReply w = ((res, Some e), st) →
    insertExit w (Exited 1) (logged [EvLog FATAL e] (inserted w st))
| exit_nil_result st :
    insertReply w = ((None, None), st) →
    insertExit w (Panicked PanicNilDeref) (inserted w st)
| exit_writeback_error r st f' e :
    insertReply w = ((Some r, None), st) →
    writebackReply w (InsertedID r) = (f', Some e) →
    insertExit w (Panicked (PanicError e))
      (logged [EvLog ERROR e; EvLog PANIC e]
         (withDoc (mkBase (persisted (doc w)) (previousValue (doc w)) f'
                          (Model (doc w)))
                  (inserted w st)))
| exit_success r st f' :
    insertReply w = ((Some r, None), st) →
    writebackReply w (InsertedID r) = (f', None) →
    insertExit w (Returned None)
      (withDoc (mkBase true (ToBson f') f' (Model (doc w))) (inserted w st)).

End Persistable.

(** The documents handed to the store, in the order of the calls. *)
Fixpoint storeOps (t : list Event) : list BsonDocument :=
  match t with
  | [] => []
  | EvInsertOne _ _ document :: t' => document :: storeOps t'
  | _ :: t' => storeOps t'
  end.

(** The contexts that a trace released by calling their cancel function. *)
Fixpoint released (t : list Event) : list Context :=
  match t with
  | [] => []
  | EvCancel ctx :: t' => ctx :: released t'
  | _ :: t' => released t'
  end.

(** The target and the context of each call to the store, in order. *)
Fixpoint storeCalls (t : list Event) : list (CollectionRef * Context) :=
  match t with
  | [] => []
  | EvInsertOne coll ctx _ :: t' => (coll, ctx) :: storeCalls t'
  | _ :: t' => storeCalls t'
  end.

(** The contexts that a trace acquired, each with its timeout. *)
Fixpoint acquired (t : list Event) : list (Context * Z) :=
  match t with
  | [] => []
  | EvWithTimeout ctx timeout :: t' => (ctx, timeout) :: acquired t'
  | _ :: t' => acquired t'
  end.

(** ** Scenarios *)

(** A schema without declared structure: the field values are kept as the
    document they encode to, and the accessor accepts every path. *)
Definition mapSchema : Schema :=
  {| Fields := gmap string Value;
     ToBson := λ f, f;
     SetField := λ fieldPath value f, (<[fieldPath := value]> f, None) |}.

(** The same fields behind an accessor that rejects every write. *)
Definition sealedSchema : Schema :=
  {| Fields := gmap string Value;
     ToBson := λ f, f;
     SetField := λ fieldPath value f, (f, Some ("no such field: " ++ fieldPath)) |}.

(** A simulated store: it answers the inserts from a script, one reply per
    call, and refuses once the script is used up. *)
Definition scriptedClient : StoreClient :=
  {| Store := list (option InsertOneResult * option error);
     InsertOne := λ _ _ _ script,
       match script with
       | reply :: script' => (reply, script')
       | [] => ((None, Some "connection closed"), [])
       end |}.

Definition people : ModelType := mkModelType "app" "people".

(** The identity [X] that the simulated store assigns. *)
Definition identityX : ObjectID := (replicate 11 Byte.x00 ++ [Byte.x2a])%list.

Definition assignsX : option InsertOneResult * option error :=
  (Some (mkInsertOneResult (VObjectID identityX)), None).

Definition refuses : option InsertOneResult * option error :=
  (None, Some "connection refused").

(** The default values of a person, and a person renamed to ["A"]. *)
Definition blankPerson : gmap string Value :=
  <["_id" := VObjectID ZeroObjectID]> (<["name" := VString ""]> ∅).

Definition personA : gmap string Value :=
  <["_id" := VObjectID ZeroObjectID]> (<["name" := VString "A"]> ∅).

(** A person whose identity was assigned, and whose profile nests a zero
    object id under a path of its own. *)
Definition personX : gmap string Value :=
  <["_id" := VObjectID identityX]>
    (<["profile" := VDocument {["_id" := VObjectID ZeroObjectID]}]> ∅).

(** A new, renamed record in front of a store that assigns [X]. *)
Definition worldAccept : @World mapSchema scriptedClient :=
  @mkWorld mapSchema scriptedClient
    (@mkBase mapSchema false blankPerson personA people) [assignsX] [] 0 [].

(** The same record in front of a store that refuses the insert. *)
Definition worldRefuse : @World mapSchema scriptedClient :=
  @mkWorld mapSchema scriptedClient
    (@mkBase mapSchema false blankPerson personA people) [refuses] [] 0 [].

(** The same record behind the rejecting accessor; the store assigns [X]. *)
Definition worldSealed : @World sealedSchema scriptedClient :=
  @mkWorld sealedSchema scriptedClient
    (@mkBase sealedSchema false blankPerson personA people) [assignsX] [] 0 [].

(** A stored, unchanged record. *)
Definition worldStored : @World mapSchema scriptedClient :=
  @mkWorld mapSchema scriptedClient
    (@mkBase mapSchema true personX personX people) [assignsX] [] 0 [].

(** The renamed record in front of a store that answers with neither a
    result nor an error. *)
Definition worldSilent : @World mapSchema scriptedClient :=
  @mkWorld mapSchema scriptedClient
    (@mkBase mapSchema false blankPerson personA people) [(None, None)] [] 0 [].

(** A new record with a pre-assigned identity and a nested zero id. *)
Definition worldPreassigned : @World mapSchema scriptedClient :=
  @mkWorld mapSchema scriptedClient
    (@mkBase mapSchema false personX personX people) [assignsX] [] 0 [].

(** * Properties *)

Section Properties.
Context `{schema : Schema} `{client : StoreClient}.
Implicit Types (w : World) (e : error) (st : Store) (r : InsertOneResult).

Ltac run :=
  cbv [Save IsPersisted saveByUpdate saveByInsert IsChanged Changes
       getMongoDriverCollectionRef context_WithTimeout collection_InsertOne
       d_ToBson d_SetField refreshPreviousValueBSON
       log_Debug log_Error log_Fatal log_Panic log_Panicf emit getDoc putDoc
       exit panic mbind M_bind mret M_ret
       dispatched inserted withDoc logged];
  cbn [doc store live nextContext trace persisted previousValue fields Model
       fst snd].

(** ** The two paths, run to their end *)

Lemma Save_dispatched w :
  Save w = (if persisted (doc w) then saveByUpdate else saveByInsert)
             (dispatched w).
Proof.
  unfold Save, IsPersisted, log_Debug, emit, getDoc, dispatched.
  cbv [mbind M_bind mret M_ret]. cbn [doc store live nextContext trace].
  by rewrite <- app_assoc.
Qed.

Lemma saveByUpdate_run w :
  saveByUpdate w =
  (Exited 1, logged [EvLog DEBUG "saveByUpdate()";
                     EvLog FATAL "NYI Save() - PERSISTED"] w).
Proof. run. by rewrite <- app_assoc. Qed.

Lemma saveByInsert_store_error w res e st :
  insertReply w = ((res, Some e), st) →
  saveByInsert w = (Exited 1, logged [EvLog FATAL e] (inserted w st)).
Proof.
  intros Hreply. run.
  unfold insertReply, targetCollection, outgoingDocument in Hreply.
  cbn. rewrite Hreply. cbn. by rewrite <- !app_assoc.
Qed.

Lemma saveByInsert_nil_result w st :
  insertReply w = ((None, None), st) →
  saveByInsert w = (Panicked PanicNilDeref, inserted w st).
Proof.
  intros Hreply. run.
  unfold insertReply, targetCollection, outgoingDocument in Hreply.
  cbn. rewrite Hreply. cbn. by rewrite <- !app_assoc.
Qed.

Lemma saveByInsert_writeback_error w r st f' e :
  insertReply w = ((Some r, None), st) →
  writebackReply w (InsertedID r) = (f', Some e) →
  saveByInsert w =
  (Panicked (PanicError e),
   logged [EvLog ERROR e; EvLog PANIC e]
     (withDoc (mkBase (persisted (doc w)) (previousValue (doc w)) f'
                      (Model (doc w)))
              (inserted w st))).
Proof.
  intros Hreply Hset. run.
  unfold insertReply, targetCollection, outgoingDocument in Hreply.
  unfold writebackReply in Hset.
  cbn. rewrite Hreply. cbn. rewrite Hset. cbn. by rewrite <- !app_assoc.
Qed.

Lemma saveByInsert_success w r st f' :
  insertReply w = ((Some r, None), st) →
  writebackReply w (InsertedID r) = (f', None) →
  saveByInsert w =
  (Returned None,
   withDoc (mkBase true (ToBson f') f' (Model (doc w))) (inserted w st)).
Proof.
  intros Hreply Hset. run.
  unfold insertReply, targetCollection, outgoingDocument in Hreply.
  unfold writebackReply in Hset.
  cbn. rewrite Hreply. cbn. rewrite Hset. cbn. by rewrite <- !app_assoc.
Qed.

Lemma saveByInsert_exit w :
  insertExit w (saveByInsert w).1 (saveByInsert w).2.
Proof.
  destruct (insertReply w) as [[[r|] [e|]] st] eqn:Hreply.
  - rewrite (saveByInsert_store_error _ _ _ _ Hreply). by econstructor.
  - destruct (writebackReply w (InsertedID r)) as [f' [e|]] eqn:Hset.
    + rewrite (saveByInsert_writeback_error _ _ _ _ _ Hreply Hset).
      by econstructor.
    + rewrite (saveByInsert_success _ _ _ _ Hreply Hset). by econstructor.
  - rewrite (saveByInsert_store_error _ _ _ _ Hreply). by econstructor.
  - rewrite (saveByInsert_nil_result _ _ Hreply). by econstructor.
Qed.

Lemma storeOps_app (t1 t2 : list Event) :
  storeOps (t1 ++ t2) = (storeOps t1 ++ storeOps t2)%list.
Proof.
  induction t1 as [|ev t1 IH]; [done|].
  destruct ev; cbn; by rewrite ?IH.
Qed.

Lemma released_app (t1 t2 : list Event) :
  released (t1 ++ t2) = (released t1 ++ released t2)%list.
Proof.
  induction t1 as [|ev t1 IH]; [done|].
  destruct ev; cbn; by rewrite ?IH.
Qed.

(** ** The diff of a snapshot with itself *)

Lemma diffEntry_same (o : option Value) : diffEntry o o = None.
Proof. unfold diffEntry. by rewrite decide_True. Qed.

Lemma makeBsonDocumentDiff_same (d : BsonDocument) :
  makeBsonDocumentDiff d d = ∅.
Proof.
  apply map_eq. intros k. unfold makeBsonDocumentDiff.
  rewrite lookup_merge, lookup_empty.
  destruct (d !! k); cbn; by rewrite ?diffEntry_same.
Qed.

(** ** The document sent by the insert path *)

Lemma dropZeroRootID_zero (d : BsonDocument) :
  d !! "_id" = Some (VObjectID ZeroObjectID) →
  dropZeroRootID d = delete "_id" d.
Proof. intros Hid. unfold dropZeroRootID. rewrite Hid. by rewrite decide_True. Qed.

Lemma dropZeroRootID_other (d : BsonDocument) :
  d !! "_id" ≠ Some (VObjectID ZeroObjectID) →
  dropZeroRootID d = d.
Proof.
  intros Hid. unfold dropZeroRootID.
  destruct (d !! "_id") as [[]|] eqn:E; try done.
  case_decide; [congruence|done].
Qed.

Lemma dropZeroRootID_lookup_ne (d : BsonDocument) (k : string) :
  k ≠ "_id" → dropZeroRootID d !! k = d !! k.
Proof.
  intros Hk. unfold dropZeroRootID.
  destruct (d !! "_id") as [[]|]; try done.
  case_decide; [|done]. by rewrite lookup_delete_ne.
Qed.

(** ** Insert path: failure of the store *)

(** C1 (amended).  For every record with persisted = false, if the store
    insert fails with an error, [Save] does not return to its caller: it
    writes the error through [log.Fatal], which terminates the process with
    status 1.  At that point the record is untouched: the persisted flag is
    still false, and the cached previous snapshot and the fields are the
    ones before the call, so the diff that [Changes] computes is the
    pre-save diff. *)
Theorem Save_insert_failure_exits w res e st :
  persisted (doc w) = false →
  insertReply w = ((res, Some e), st) →
  ∃ w', Save w = (Exited 1, w') ∧
        doc w' = doc w ∧
        persisted (doc w') = false ∧
        previousValue (doc w') = previousValue (doc w) ∧
        (Changes w').1 = (Changes w).1 ∧
        last (trace w') = Some (EvLog FATAL e).
Proof.
  intros Hnew Hreply. rewrite Save_dispatched, Hnew.
  rewrite (saveByInsert_store_error (dispatched w) res e st Hreply).
  eexists. split; [reflexivity|]. cbn.
  repeat split; try done. by rewrite last_snoc.
Qed.

(** ** Insert path: success *)

Lemma IsPersisted_run w :
  IsPersisted w =
  (Returned (persisted (doc w)), logged [EvLog DEBUG "Base.IsPersisted()"] w).
Proof. reflexivity. Qed.

Lemma Changes_run w :
  Changes w =
  (Returned (makeBsonDocumentDiff (previousValue (doc w))
                                  (ToBson (fields (doc w)))),
   logged [EvLog DEBUG "Base.Changes()"] w).
Proof. reflexivity. Qed.

Lemma IsChanged_run w :
  IsChanged w =
  (Returned (bool_decide
               (0 < size (makeBsonDocumentDiff (previousValue (doc w))
                                               (ToBson (fields (doc w)))))),
   logged [EvLog DEBUG "Base.IsChanged()"; EvLog DEBUG "Base.Changes()"] w).
Proof.
  unfold IsChanged, log_Debug, emit. cbv [mbind M_bind].
  rewrite Changes_run. cbn [doc previousValue fields].
  unfold logged. cbn [doc store live nextContext trace].
  rewrite <- app_assoc. cbn [app].
  case_decide.
  - by rewrite bool_decide_eq_true_2.
  - by rewrite bool_decide_eq_false_2.
Qed.

(** C2 (amended).  For every record with persisted = false, when the store
    insert succeeds and returns an assigned identity and the field accessor
    accepts the write of that identity into [_id], [Save] returns nil, the
    record's fields are the ones in which the accessor wrote that identity
    into [_id], persisted is true and the cached previous snapshot is the
    encoding of the current fields; afterwards [IsPersisted] answers true
    and [IsChanged] answers false. *)
Theorem Save_insert_success w r st f' :
  persisted (doc w) = false →
  insertReply w = ((Some r, None), st) →
  SetField "_id" (InsertedID r) (fields (doc w)) = (f', None) →
  ∃ w', Save w = (Returned None, w') ∧
        fields (doc w') = f' ∧
        persisted (doc w') = true ∧
        previousValue (doc w') = ToBson (fields (doc w')) ∧
        (IsPersisted w').1 = Returned true ∧
        (IsChanged w').1 = Returned false.
Proof.
  intros Hnew Hreply Hset. rewrite Save_dispatched, Hnew.
  rewrite (saveByInsert_success (dispatched w) r st f' Hreply Hset).
  eexists. split; [reflexivity|].
  rewrite IsPersisted_run, IsChanged_run. cbn.
  repeat split; try done.
  rewrite makeBsonDocumentDiff_same, map_size_empty.
  by rewrite bool_decide_eq_false_2 by lia.
Qed.

(** ** What every exit of the insert path has in common *)

Lemma insertExit_storeOps w o w' :
  insertExit w o w' →
  storeOps (trace w') = (storeOps (trace w) ++ [outgoingDocument w])%list.
Proof.
  destruct 1; cbn; rewrite ?storeOps_app; cbn; by rewrite ?app_nil_r.
Qed.

Lemma insertExit_live w o w' :
  insertExit w o w' →
  live w' = nextContext w :: live w ∧
  released (trace w') = released (trace w).
Proof.
  destruct 1; cbn; rewrite ?released_app; cbn; by rewrite ?app_nil_r.
Qed.

Lemma insertExit_returned w oe w' :
  insertExit w (Returned oe) w' → oe = None.
Proof. by inversion 1. Qed.

Lemma insertExit_mutated w o w' :
  insertExit w o w' →
  doc w' ≠ doc w →
  ∃ r st, insertReply w = ((Some r, None), st).
Proof. destruct 1; cbn; intros Hdoc; by eauto. Qed.

Lemma Save_unpersisted_exit w :
  persisted (doc w) = false →
  insertExit (dispatched w) (Save w).1 (Save w).2.
Proof.
  intros Hnew. rewrite Save_dispatched, Hnew. apply saveByInsert_exit.
Qed.

(** C3.  For every record with persisted = false whose encoded document
    holds the zero object id in its identifier field [_id], the one
    document that [Save] hands to the store's insert is the encoding with
    the [_id] entry deleted: it has no identifier path, and every other
    path is as encoded. *)
Theorem Save_insert_drops_zero_identifier w :
  persisted (doc w) = false →
  ToBson (fields (doc w)) !! "_id" = Some (VObjectID ZeroObjectID) →
  ∃ out : BsonDocument,
    storeOps (trace (Save w).2) = (storeOps (trace w) ++ [out])%list ∧
    out = delete "_id" (ToBson (fields (doc w))) ∧
    out !! "_id" = None ∧
    ∀ k, k ≠ "_id" → out !! k = ToBson (fields (doc w)) !! k.
Proof.
  intros Hnew Hid. exists (outgoingDocument (dispatched w)).
  split; [|unfold outgoingDocument; cbn [dispatched doc];
           rewrite (dropZeroRootID_zero _ Hid); split; [done|split]].
  - rewrite (insertExit_storeOps _ _ _ (Save_unpersisted_exit w Hnew)).
    cbn. rewrite storeOps_app. cbn. by rewrite app_nil_r.
  - apply lookup_delete_eq.
  - intros k Hk. by rewrite lookup_delete_ne.
Qed.

(** C9.  The insert path sends exactly one document.  It is the encoding
    without its root [_id] entry when that entry is an [ObjectID] equal to
    the zero object id, and the encoding unchanged in every other case (no
    root [_id], an [_id] of another dynamic type, a non-zero [ObjectID]);
    entries at any other root path, with whatever they nest, are sent as
    encoded. *)
Theorem Save_insert_outgoing_document w :
  persisted (doc w) = false →
  ∃ out : BsonDocument,
    storeOps (trace (Save w).2) = (storeOps (trace w) ++ [out])%list ∧
    (ToBson (fields (doc w)) !! "_id" = Some (VObjectID ZeroObjectID) →
     out = delete "_id" (ToBson (fields (doc w)))) ∧
    (ToBson (fields (doc w)) !! "_id" ≠ Some (VObjectID ZeroObjectID) →
     out = ToBson (fields (doc w))) ∧
    (∀ k, k ≠ "_id" → out !! k = ToBson (fields (doc w)) !! k).
Proof.
  intros Hnew. exists (outgoingDocument (dispatched w)).
  split; [|unfold outgoingDocument; cbn [dispatched doc]; split; [|split]].
  - rewrite (insertExit_storeOps _ _ _ (Save_unpersisted_exit w Hnew)).
    cbn. rewrite storeOps_app. cbn. by rewrite app_nil_r.
  - apply dropZeroRootID_zero.
  - apply dropZeroRootID_other.
  - intros k. apply dropZeroRootID_lookup_ne.
Qed.

(** ** Insert path: failure of the identity writeback *)

(** C5 (amended).  For every record with persisted = false, if the store
    accepts the insert but the field accessor rejects the assigned
    identity, [Save] does not return to its caller: it writes the failure
    through [log.Error] and panics with it through [log.Panic].  The
    persisted flag is not set to true and the cached previous snapshot is
    not refreshed. *)
Theorem Save_writeback_failure_panics w r st f' e :
  persisted (doc w) = false →
  insertReply w = ((Some r, None), st) →
  SetField "_id" (InsertedID r) (fields (doc w)) = (f', Some e) →
  ∃ w', Save w = (Panicked (PanicError e), w') ∧
        persisted (doc w') = false ∧
        previousValue (doc w') = previousValue (doc w) ∧
        ∃ t, trace w' = (t ++ [EvLog ERROR e; EvLog PANIC e])%list.
Proof.
  intros Hnew Hreply Hset. rewrite Save_dispatched, Hnew.
  rewrite (saveByInsert_writeback_error (dispatched w) r st f' e Hreply Hset).
  eexists. split; [reflexivity|]. cbn.
  repeat split; try done. by eexists.
Qed.

(** ** Update path *)

(** C4 (amended).  For every record with persisted = true, [Save] takes
    the update path, which is a stub: it computes no diff ([Changes] is
    not called: all that the call does is to write the debug lines of
    [Save], [IsPersisted] and [saveByUpdate] and the fatal line) and issues
    no store operation, leaves the record, the store and the contexts as
    they are, and terminates the process through [log.Fatal] with the
    message ["NYI Save() - PERSISTED"] instead of returning. *)
Theorem Save_persisted_exits w :
  persisted (doc w) = true →
  ∃ w', Save w = (Exited 1, w') ∧
        doc w' = doc w ∧
        store w' = store w ∧
        live w' = live w ∧
        nextContext w' = nextContext w ∧
        trace w' = (trace w ++ [EvLog DEBUG "Base.Save()";
                                EvLog DEBUG "Base.IsPersisted()";
                                EvLog DEBUG "saveByUpdate()";
                                EvLog FATAL "NYI Save() - PERSISTED"])%list ∧
        (EvLog DEBUG "Base.Changes()" ∉ drop (length (trace w)) (trace w')) ∧
        storeOps (trace w') = storeOps (trace w) ∧
        last (trace w') = Some (EvLog FATAL "NYI Save() - PERSISTED").
Proof.
  intros Hstored. rewrite Save_dispatched, Hstored, saveByUpdate_run.
  eexists. split; [reflexivity|]. cbn.
  rewrite <- app_assoc. cbn [app].
  repeat split; try done.
  - rewrite drop_app_length. intros Hin.
    repeat (apply elem_of_cons in Hin as [Hin|Hin]; [discriminate|]).
    by apply elem_of_nil in Hin.
  - rewrite !storeOps_app. cbn. by rewrite !app_nil_r.
  - by rewrite last_app.
Qed.

(** ** Dispatch *)

Lemma Save_persisted_unmutated w :
  persisted (doc w) = true → doc (Save w).2 = doc w.
Proof.
  intros Hstored. by rewrite Save_dispatched, Hstored, saveByUpdate_run.
Qed.

(** C6.  [Save] dispatches on the persisted flag alone: with persisted =
    false it continues as the insert path and with persisted = true as the
    update path, in a world that differs from the caller's only by the two
    debug lines written so far (same record, same store, no store operation
    issued).  The record is mutated only after the store operation
    succeeded: whenever the record after [Save] differs from the record
    before it, the flag was false and the store had accepted the insert. *)
Theorem Save_dispatches_on_persisted w :
  Save w = (if persisted (doc w) then saveByUpdate else saveByInsert)
             (dispatched w) ∧
  doc (dispatched w) = doc w ∧
  store (dispatched w) = store w ∧
  storeOps (trace (dispatched w)) = storeOps (trace w) ∧
  (doc (Save w).2 ≠ doc w →
   persisted (doc w) = false ∧
   ∃ r st, insertReply w = ((Some r, None), st)).
Proof.
  split; [apply Save_dispatched|]. do 2 (split; [reflexivity|]).
  split.
  { cbn. rewrite storeOps_app. cbn. by rewrite app_nil_r. }
  intros Hdoc. destruct (persisted (doc w)) eqn:Hflag.
  - destruct (Hdoc (Save_persisted_unmutated w Hflag)).
  - split; [done|].
    apply (insertExit_mutated _ _ _ (Save_unpersisted_exit w Hflag) Hdoc).
Qed.

(** ** The cancellation context of the insert *)

(** C7 (what the code does).  On the insert path [Save] acquires one
    context with a timeout of five seconds and drops the function that
    releases it: at every exit (return, fatal exit, panic) the context is
    still live and no release was ever called. *)
Theorem Save_insert_context_not_released w :
  persisted (doc w) = false →
  live (Save w).2 = nextContext w :: live w ∧
  released (trace (Save w).2) = released (trace w) ∧
  EvWithTimeout (nextContext w) (5 * Second) ∈ trace (Save w).2.
Proof.
  intros Hnew. pose proof (Save_unpersisted_exit w Hnew) as Hexit.
  destruct (insertExit_live _ _ _ Hexit) as [Hlive Hrel].
  split; [exact Hlive|]. split.
  { rewrite Hrel. cbn. rewrite released_app. cbn. by rewrite app_nil_r. }
  destruct Hexit; cbn; set_solver.
Qed.

(** ** Change tracking *)

(** C8.  For every record, [Changes] returns a diff and leaves the record
    as it is, and a second call right after it returns the same diff;
    [IsChanged] returns true exactly when that diff has at least one
    entry. *)
Theorem Changes_idempotent w :
  ∃ (c : BsonDocument) w1 w2,
    Changes w = (Returned c, w1) ∧
    doc w1 = doc w ∧
    Changes w1 = (Returned c, w2) ∧
    ∃ (b : bool) w3,
      IsChanged w = (Returned b, w3) ∧
      (b = true ↔ ∃ k v, c !! k = Some v).
Proof.
  do 3 eexists. split; [apply Changes_run|]. split; [reflexivity|].
  split; [rewrite Changes_run; reflexivity|].
  do 2 eexists. split; [apply IsChanged_run|].
  rewrite bool_decide_eq_true.
  set (c := makeBsonDocumentDiff _ _). split.
  - intros Hsize. apply map_choose. intros ->.
    rewrite map_size_empty in Hsize. lia.
  - intros (k & v & Hk). destruct (decide (size c = 0)) as [Hz|]; [|lia].
    apply map_size_empty_iff in Hz. rewrite Hz in Hk. by rewrite lookup_empty in Hk.
Qed.

(** ** The error value of the insert path *)

(** C10.  For every call of [Save] on a record with persisted = false,
    whenever the call returns, the returned error is nil, and it does
    return nil when the insert and the writeback succeed; a failed store
    insert ends in the exit of the process and a failed identity writeback
    in a panic, never in a return. *)
Theorem Save_unpersisted_returns_nil w :
  persisted (doc w) = false →
  (∀ oe w', Save w = (Returned oe, w') → oe = None) ∧
  (∀ r st f', insertReply w = ((Some r, None), st) →
              SetField "_id" (InsertedID r) (fields (doc w)) = (f', None) →
              (Save w).1 = Returned None) ∧
  (∀ res e st, insertReply w = ((res, Some e), st) →
               (Save w).1 = Exited 1) ∧
  (∀ r st f' e, insertReply w = ((Some r, None), st) →
                SetField "_id" (InsertedID r) (fields (doc w)) = (f', Some e) →
                (Save w).1 = Panicked (PanicError e)).
Proof.
  intros Hnew. split; [|split; [|split]].
  - intros oe w' Hsave. pose proof (Save_unpersisted_exit w Hnew) as Hexit.
    rewrite Hsave in Hexit. by apply insertExit_returned in Hexit.
  - intros r st f' Hreply Hset. rewrite Save_dispatched, Hnew.
    by rewrite (saveByInsert_success (dispatched w) r st f' Hreply Hset).
  - intros res e st Hreply. rewrite Save_dispatched, Hnew.
    by rewrite (saveByInsert_store_error (dispatched w) res e st Hreply).
  - intros r st f' e Hreply Hset. rewrite Save_dispatched, Hnew.
    by rewrite (saveByInsert_writeback_error (dispatched w) r st f' e
                  Hreply Hset).
Qed.

(** ** Further properties of the methods *)

Lemma storeCalls_app (t1 t2 : list Event) :
  storeCalls (t1 ++ t2) = (storeCalls t1 ++ storeCalls t2)%list.
Proof.
  induction t1 as [|ev t1 IH]; [done|].
  destruct ev; cbn; by rewrite ?IH.
Qed.

Lemma acquired_app (t1 t2 : list Event) :
  acquired (t1 ++ t2) = (acquired t1 ++ acquired t2)%list.
Proof.
  induction t1 as [|ev t1 IH]; [done|].
  destruct ev; cbn; by rewrite ?IH.
Qed.

Lemma insertExit_store w o w' :
  insertExit w o w' → store w' = (insertReply w).2.
Proof. destruct 1 as [? ? ? H|? H|? ? ? ? H ?|? ? ? H ?]; by rewrite H. Qed.

Lemma insertExit_calls w o w' :
  insertExit w o w' →
  storeCalls (trace w')
  = (storeCalls (trace w) ++ [(targetCollection w, nextContext w)])%list ∧
  acquired (trace w')
  = (acquired (trace w) ++ [(nextContext w, 5 * Second)%Z])%list.
Proof.
  destruct 1; cbn; rewrite ?storeCalls_app, ?acquired_app; cbn;
    by rewrite ?app_nil_r.
Qed.

(** X1.  Whenever [Save] returns to its caller, on any record, the error
    it returns is nil, the record was not persisted before the call and is
    persisted after it, the store had accepted the insert, the store is in
    the state the insert left, and the fields are the ones in which the
    accessor wrote the inserted id into [_id]. *)
Theorem Save_returned w oe w' :
  Save w = (Returned oe, w') →
  oe = None ∧
  persisted (doc w) = false ∧
  persisted (doc w') = true ∧
  Model (doc w') = Model (doc w) ∧
  ∃ r st, insertReply w = ((Some r, None), st) ∧
          store w' = st ∧
          SetField "_id" (InsertedID r) (fields (doc w))
          = (fields (doc w'), None).
Proof.
  intros Hsave. destruct (persisted (doc w)) eqn:Hflag.
  - rewrite Save_dispatched, Hflag, saveByUpdate_run in Hsave. discriminate.
  - pose proof (Save_unpersisted_exit w Hflag) as Hexit.
    rewrite Hsave in Hexit. cbn [fst snd] in Hexit.
    inversion Hexit as [| | |r st f' Hreply Hset]; subst.
    cbn. repeat split; try done.
    exists r, st. by repeat split.
Qed.

(** X2.  Saving twice: when the first [Save] of a new record succeeds, a
    second [Save] of the same record takes the update path and terminates
    the process with status 1; it leaves the record and the store as the
    first call left them, and in both calls together the store received
    exactly the one insert. *)
Theorem Save_twice_exits w r st f' :
  persisted (doc w) = false →
  insertReply w = ((Some r, None), st) →
  SetField "_id" (InsertedID r) (fields (doc w)) = (f', None) →
  ∃ w1 w2,
    Save w = (Returned None, w1) ∧
    Save w1 = (Exited 1, w2) ∧
    doc w2 = doc w1 ∧
    store w2 = st ∧
    storeOps (trace w2)
    = (storeOps (trace w) ++ [dropZeroRootID (ToBson (fields (doc w)))])%list.
Proof.
  intros Hnew Hreply Hset.
  rewrite Save_dispatched, Hnew.
  rewrite (saveByInsert_success (dispatched w) r st f' Hreply Hset).
  eexists. eexists. split; [reflexivity|].
  rewrite Save_dispatched. cbn [withDoc doc persisted].
  rewrite saveByUpdate_run. split; [reflexivity|]. cbn.
  repeat split; try done.
  rewrite !storeOps_app. cbn. by rewrite !app_nil_r.
Qed.

(** X3.  The insert is not rolled back.  On the insert path the store is,
    at every exit, in the state in which the insert left it; in particular
    when the identity writeback fails, the store has taken the insert
    while the record is still unpersisted and carries the fields as the
    accessor left them. *)
Theorem Save_insert_not_rolled_back w :
  persisted (doc w) = false →
  store (Save w).2 = (insertReply w).2 ∧
  ∀ r st f' e,
    insertReply w = ((Some r, None), st) →
    SetField "_id" (InsertedID r) (fields (doc w)) = (f', Some e) →
    store (Save w).2 = st ∧
    persisted (doc (Save w).2) = false ∧
    fields (doc (Save w).2) = f'.
Proof.
  intros Hnew. split.
  - apply (insertExit_store _ _ _ (Save_unpersisted_exit w Hnew)).
  - intros r st f' e Hreply Hset. rewrite Save_dispatched, Hnew.
    by rewrite (saveByInsert_writeback_error (dispatched w) r st f' e
                  Hreply Hset).
Qed.

(** X4.  On the insert path [Save] calls the store once, against the
    collection that the record's model names (its database name and its
    collection name), and under the one context that this call acquired,
    with a timeout of 5000000000 ns. *)
Theorem Save_insert_target w :
  persisted (doc w) = false →
  storeCalls (trace (Save w).2)
  = (storeCalls (trace w)
     ++ [(mkCollectionRef (GetDatabaseName (Model (doc w)))
                          (GetCollectionName (Model (doc w))),
          nextContext w)])%list ∧
  acquired (trace (Save w).2)
  = (acquired (trace w) ++ [(nextContext w, 5000000000%Z)])%list.
Proof.
  intros Hnew.
  destruct (insertExit_calls _ _ _ (Save_unpersisted_exit w Hnew))
    as [Hcalls Hacq].
  rewrite Hcalls, Hacq. cbn [dispatched trace nextContext].
  rewrite storeCalls_app, acquired_app. cbn. by rewrite !app_nil_r.
Qed.

Lemma dropZeroRootID_not_zero (d : BsonDocument) :
  dropZeroRootID d !! "_id" ≠ Some (VObjectID ZeroObjectID).
Proof.
  destruct (decide (d !! "_id" = Some (VObjectID ZeroObjectID))) as [Hid|Hid].
  - rewrite (dropZeroRootID_zero d Hid). by rewrite lookup_delete_eq.
  - by rewrite (dropZeroRootID_other d Hid).
Qed.

Lemma dropZeroRootID_subseteq (d : BsonDocument) : dropZeroRootID d ⊆ d.
Proof.
  destruct (decide (d !! "_id" = Some (VObjectID ZeroObjectID))) as [Hid|Hid].
  - rewrite (dropZeroRootID_zero d Hid). apply delete_subseteq.
  - by rewrite (dropZeroRootID_other d Hid).
Qed.

Lemma dropZeroRootID_size (d : BsonDocument) :
  (size d ≤ S (size (dropZeroRootID d)))%nat.
Proof.
  destruct (decide (d !! "_id" = Some (VObjectID ZeroObjectID))) as [Hid|Hid].
  - rewrite (dropZeroRootID_zero d Hid), map_size_delete, Hid. cbn. lia.
  - rewrite (dropZeroRootID_other d Hid). lia.
Qed.

(** X5.  Whatever the record encodes to, the document that the insert
    path hands to the store never holds the zero object id at its root
    [_id]; it holds nothing that the encoding does not hold, and misses at
    most one of the encoding's entries. *)
Theorem Save_insert_never_sends_zero_id w :
  persisted (doc w) = false →
  ∃ out : BsonDocument,
    storeOps (trace (Save w).2) = (storeOps (trace w) ++ [out])%list ∧
    out !! "_id" ≠ Some (VObjectID ZeroObjectID) ∧
    out ⊆ ToBson (fields (doc w)) ∧
    (size (ToBson (fields (doc w))) ≤ S (size out))%nat.
Proof.
  intros Hnew. exists (dropZeroRootID (ToBson (fields (doc w)))).
  split; [|split; [|split]].
  - rewrite (insertExit_storeOps _ _ _ (Save_unpersisted_exit w Hnew)).
    cbn. rewrite storeOps_app. cbn. by rewrite app_nil_r.
  - apply dropZeroRootID_not_zero.
  - apply dropZeroRootID_subseteq.
  - apply dropZeroRootID_size.
Qed.

(** [Save] reads the record, the store and the contexts of the world, and
    nothing of what was logged before. *)
Lemma saveByInsert_frame w1 w2 :
  doc w1 = doc w2 → store w1 = store w2 →
  live w1 = live w2 → nextContext w1 = nextContext w2 →
  (saveByInsert w1).1 = (saveByInsert w2).1 ∧
  doc (saveByInsert w1).2 = doc (saveByInsert w2).2 ∧
  store (saveByInsert w1).2 = store (saveByInsert w2).2 ∧
  live (saveByInsert w1).2 = live (saveByInsert w2).2.
Proof.
  destruct w1 as [d1 s1 l1 n1 t1], w2 as [d2 s2 l2 n2 t2]. cbn.
  intros -> -> -> ->.
  set (w1 := mkWorld d2 s2 l2 n2 t1). set (w2 := mkWorld d2 s2 l2 n2 t2).
  destruct (insertReply w2) as [[[r|] [e|]] st] eqn:H2;
    assert (H1 : insertReply w1 = insertReply w2) by reflexivity;
    rewrite H2 in H1.
  - by rewrite (saveByInsert_store_error _ _ _ _ H1),
               (saveByInsert_store_error _ _ _ _ H2).
  - destruct (writebackReply w2 (InsertedID r)) as [f' [e|]] eqn:S2;
      assert (S1 : writebackReply w1 (InsertedID r)
                   = writebackReply w2 (InsertedID r)) by reflexivity;
      rewrite S2 in S1.
    + by rewrite (saveByInsert_writeback_error _ _ _ _ _ H1 S1),
                 (saveByInsert_writeback_error _ _ _ _ _ H2 S2).
    + by rewrite (saveByInsert_success _ _ _ _ H1 S1),
                 (saveByInsert_success _ _ _ _ H2 S2).
  - by rewrite (saveByInsert_store_error _ _ _ _ H1),
               (saveByInsert_store_error _ _ _ _ H2).
  - by rewrite (saveByInsert_nil_result _ _ H1),
               (saveByInsert_nil_result _ _ H2).
Qed.

Lemma Save_frame w es : sameSave (logged es w) w.
Proof.
  unfold sameSave. rewrite !Save_dispatched. cbn [logged doc].
  destruct (persisted (doc w)).
  - by rewrite !saveByUpdate_run.
  - by apply saveByInsert_frame.
Qed.

(** X6.  Looking before saving is harmless: each of [IsPersisted],
    [Changes] and [IsChanged] returns, and a [Save] right after it ends in
    the same way (same return, exit or panic), with the same record, store
    and live contexts, as the [Save] without it. *)
Theorem Save_after_observers w :
  (∃ b, (IsPersisted w).1 = Returned b ∧ sameSave (IsPersisted w).2 w) ∧
  (∃ c, (Changes w).1 = Returned c ∧ sameSave (Changes w).2 w) ∧
  (∃ b, (IsChanged w).1 = Returned b ∧ sameSave (IsChanged w).2 w).
Proof.
  rewrite IsPersisted_run, Changes_run, IsChanged_run. cbn [fst snd].
  repeat split; eexists; (split; [reflexivity|apply Save_frame]).
Qed.

(** X7.  [Was] never returns: for every field path, the empty one
    included, and every record it panics with the message
    ["NYI -Base.Was_(<path>)"]; it leaves the record, the store and the
    contexts as they are and calls the store not at all. *)
Theorem Was_panics w (fieldPath : string) :
  (Was fieldPath w).1
  = Panicked (PanicMessage ("NYI -Base.Was_(" ++ fieldPath ++ ")")) ∧
  (∀ v w', Was fieldPath w ≠ (Returned v, w')) ∧
  doc (Was fieldPath w).2 = doc w ∧
  store (Was fieldPath w).2 = store w ∧
  live (Was fieldPath w).2 = live w ∧
  storeOps (trace (Was fieldPath w).2) = storeOps (trace w).
Proof.
  assert (Hrun : Was fieldPath w
                 = (Panicked (PanicMessage
                                ("NYI -Base.Was_(" ++ fieldPath ++ ")")),
                    logged [EvLog PANIC
                              ("NYI -Base.Was_(" ++ fieldPath ++ ")")] w))
    by reflexivity.
  rewrite Hrun. cbn. repeat split; try done.
  rewrite storeOps_app. cbn. by rewrite app_nil_r.
Qed.

(** X8.  [saveByInsert] reads [res.InsertedID] without testing [res]: when
    the client answers an insert with neither a result nor an error, [Save]
    panics on the nil result after the store was called; the record is
    untouched and still unpersisted, and the store keeps the state the call
    left. *)
Theorem Save_nil_result_panics w st :
  persisted (doc w) = false →
  insertReply w = ((None, None), st) →
  ∃ w', Save w = (Panicked PanicNilDeref, w') ∧
        doc w' = doc w ∧
        store w' = st ∧
        storeOps (trace w')
        = (storeOps (trace w) ++ [dropZeroRootID (ToBson (fields (doc w)))])%list.
Proof.
  intros Hnew Hreply. rewrite Save_dispatched, Hnew.
  rewrite (saveByInsert_nil_result (dispatched w) st Hreply).
  eexists. split; [reflexivity|]. cbn. repeat split; try done.
  rewrite !storeOps_app. cbn. by rewrite !app_nil_r.
Qed.

End Properties.

(** C1, as stated, fails: the simulated store refuses the insert of a new
    record, and [Save] hands no error back, whatever the final world. *)
Lemma Save_insert_failure_not_returned :
  persisted (doc worldRefuse) = false ∧
  insertReply worldRefuse = (refuses, []) ∧
  ∀ w', Save worldRefuse ≠ (Returned (Some "connection refused"), w').
Proof.
  split; [reflexivity|]. split; [reflexivity|].
  intros w' Hsave.
  assert (Hfst : (Save worldRefuse).1 = Exited 1) by (vm_compute; reflexivity).
  rewrite Hsave in Hfst. discriminate.
Qed.

Lemma Save_insert_failure_exits_witness :
  ∃ w', Save worldRefuse = (Exited 1, w') ∧
        doc w' = doc worldRefuse ∧
        persisted (doc w') = false ∧
        previousValue (doc w') = previousValue (doc worldRefuse) ∧
        (Changes w').1 = (Changes worldRefuse).1 ∧
        last (trace w') = Some (EvLog FATAL "connection refused").
Proof.
  apply (Save_insert_failure_exits worldRefuse None "connection refused" []);
    reflexivity.
Defined.

(** C2, as stated, fails: the store accepts the insert of a new record and
    assigns [X], but the accessor rejects the write, so [Save] panics; it
    never returns, the record is not persisted afterwards and its fields do
    not hold [X]. *)
Lemma Save_insert_accepted_not_persisted :
  persisted (doc worldSealed) = false ∧
  insertReply worldSealed = (assignsX, []) ∧
  (Save worldSealed).1 = Panicked (PanicError "no such field: _id") ∧
  persisted (doc (Save worldSealed).2) = false ∧
  (IsPersisted (Save worldSealed).2).1 = Returned false ∧
  ToBson (fields (doc (Save worldSealed).2)) !! "_id"
    ≠ Some (VObjectID identityX) ∧
  ∀ oe w', Save worldSealed = (Returned oe, w') → persisted (doc w') ≠ true.
Proof.
  assert (Hfst : (Save worldSealed).1
                 = Panicked (PanicError "no such field: _id"))
    by (vm_compute; reflexivity).
  split; [reflexivity|]. split; [reflexivity|]. split; [exact Hfst|].
  split; [by vm_compute|]. split; [by vm_compute|].
  split; [by vm_compute|].
  intros oe w' Hsave. rewrite Hsave in Hfst. discriminate.
Qed.

Lemma Save_insert_success_witness :
  ∃ w', Save worldAccept = (Returned None, w') ∧
        fields (doc w') = <["_id" := VObjectID identityX]> personA ∧
        persisted (doc w') = true ∧
        previousValue (doc w') = ToBson (fields (doc w')) ∧
        (IsPersisted w').1 = Returned true ∧
        (IsChanged w').1 = Returned false.
Proof.
  apply (Save_insert_success worldAccept
           (mkInsertOneResult (VObjectID identityX)) []
           (<["_id" := VObjectID identityX]> personA));
    reflexivity.
Defined.

Lemma Save_insert_drops_zero_identifier_witness :
  ∃ out : BsonDocument,
    storeOps (trace (Save worldAccept).2) = (storeOps [] ++ [out])%list ∧
    out = delete "_id" personA ∧
    out !! "_id" = None ∧
    ∀ k, k ≠ "_id" → out !! k = personA !! k.
Proof.
  apply (Save_insert_drops_zero_identifier worldAccept); reflexivity.
Defined.

Lemma Save_insert_outgoing_document_witness :
  ∃ out : BsonDocument,
    storeOps (trace (Save worldPreassigned).2) = (storeOps [] ++ [out])%list ∧
    (personX !! "_id" = Some (VObjectID ZeroObjectID) →
     out = delete "_id" personX) ∧
    (personX !! "_id" ≠ Some (VObjectID ZeroObjectID) → out = personX) ∧
    (∀ k, k ≠ "_id" → out !! k = personX !! k).
Proof.
  apply (Save_insert_outgoing_document worldPreassigned); reflexivity.
Defined.

(** A pre-assigned identity and a zero object id nested below the root
    both reach the store. *)
Example Save_sends_nested_zero_id :
  storeOps (trace (Save worldPreassigned).2) = [personX] ∧
  personX !! "profile" = Some (VDocument {["_id" := VObjectID ZeroObjectID]}).
Proof. split; vm_compute; reflexivity. Qed.

(** C5, as stated, fails: the store assigns [X], the accessor rejects the
    write, and [Save] hands no error back. *)
Lemma Save_writeback_failure_not_returned :
  persisted (doc worldSealed) = false ∧
  insertReply worldSealed = (assignsX, []) ∧
  SetField "_id" (VObjectID identityX) (fields (doc worldSealed))
    = (personA, Some "no such field: _id") ∧
  ∀ w', Save worldSealed ≠ (Returned (Some "no such field: _id"), w').
Proof.
  split; [reflexivity|]. split; [reflexivity|]. split; [reflexivity|].
  intros w' Hsave.
  assert (Hfst : (Save worldSealed).1
                 = Panicked (PanicError "no such field: _id"))
    by (vm_compute; reflexivity).
  rewrite Hsave in Hfst. discriminate.
Qed.

Lemma Save_writeback_failure_panics_witness :
  ∃ w', Save worldSealed
        = (Panicked (PanicError "no such field: _id"), w') ∧
        persisted (doc w') = false ∧
        previousValue (doc w') = previousValue (doc worldSealed) ∧
        ∃ t, trace w' = (t ++ [EvLog ERROR "no such field: _id";
                               EvLog PANIC "no such field: _id"])%list.
Proof.
  apply (Save_writeback_failure_panics worldSealed
           (mkInsertOneResult (VObjectID identityX)) [] personA
           "no such field: _id");
    reflexivity.
Defined.

(** C4, as stated, fails: a stored record without changes has an empty
    diff, and [Save] exits the process instead of returning nil. *)
Lemma Save_persisted_unchanged_crashes :
  persisted (doc worldStored) = true ∧
  (Changes worldStored).1 = Returned ∅ ∧
  (Save worldStored).1 = Exited 1 ∧
  ∀ w', Save worldStored ≠ (Returned None, w').
Proof.
  split; [reflexivity|]. split; [by vm_compute|].
  assert (Hfst : (Save worldStored).1 = Exited 1) by (vm_compute; reflexivity).
  split; [exact Hfst|].
  intros w' Hsave. rewrite Hsave in Hfst. discriminate.
Qed.

Lemma Save_persisted_exits_witness :
  ∃ w', Save worldStored = (Exited 1, w') ∧
        doc w' = doc worldStored ∧
        store w' = store worldStored ∧
        live w' = live worldStored ∧
        nextContext w' = nextContext worldStored ∧
        trace w' = [EvLog DEBUG "Base.Save()";
                    EvLog DEBUG "Base.IsPersisted()";
                    EvLog DEBUG "saveByUpdate()";
                    EvLog FATAL "NYI Save() - PERSISTED"] ∧
        (EvLog DEBUG "Base.Changes()" ∉ drop 0 (trace w')) ∧
        storeOps (trace w') = storeOps (trace worldStored) ∧
        last (trace w') = Some (EvLog FATAL "NYI Save() - PERSISTED").
Proof. apply (Save_persisted_exits worldStored); reflexivity. Defined.

Lemma Save_insert_context_not_released_witness :
  live (Save worldAccept).2 = [0] ∧
  released (trace (Save worldAccept).2) = [] ∧
  EvWithTimeout 0 (5 * Second) ∈ trace (Save worldAccept).2.
Proof.
  apply (Save_insert_context_not_released worldAccept); reflexivity.
Defined.

Lemma Save_unpersisted_returns_nil_witness :
  (∀ oe w', Save worldAccept = (Returned oe, w') → oe = None) ∧
  (∀ r st f', insertReply worldAccept = ((Some r, None), st) →
              SetField "_id" (InsertedID r) (fields (doc worldAccept))
                = (f', None) →
              (Save worldAccept).1 = Returned None) ∧
  (∀ res e st, insertReply worldAccept = ((res, Some e), st) →
               (Save worldAccept).1 = Exited 1) ∧
  (∀ r st f' e, insertReply worldAccept = ((Some r, None), st) →
                SetField "_id" (InsertedID r) (fields (doc worldAccept))
                  = (f', Some e) →
                (Save worldAccept).1 = Panicked (PanicError e)).
Proof.
  apply (Save_unpersisted_returns_nil worldAccept); reflexivity.
Defined.

Lemma Save_dispatches_on_persisted_witness :
  Save worldStored = saveByUpdate (dispatched worldStored) ∧
  Save worldAccept = saveByInsert (dispatched worldAccept).
Proof.
  split.
  - exact (proj1 (Save_dispatches_on_persisted worldStored)).
  - exact (proj1 (Save_dispatches_on_persisted worldAccept)).
Defined.

Lemma Changes_idempotent_witness :
  ∃ (c : BsonDocument) w1 w2,
    Changes worldAccept = (Returned c, w1) ∧
    doc w1 = doc worldAccept ∧
    Changes w1 = (Returned c, w2) ∧
    ∃ (b : bool) w3,
      IsChanged worldAccept = (Returned b, w3) ∧
      (b = true ↔ ∃ k v, c !! k = Some v).
Proof. exact (Changes_idempotent worldAccept). Defined.

(** The renamed, unsaved person of the scenarios: the diff is the one
    changed path, and [IsChanged] answers true. *)
Example Changes_of_renamed_person :
  (Changes worldAccept).1 = Returned {["name" := VString "A"]} ∧
  (IsChanged worldAccept).1 = Returned true.
Proof. split; vm_compute; reflexivity. Qed.

Lemma Save_returned_witness :
  (None : option error) = None ∧
  persisted (doc worldAccept) = false ∧
  persisted (doc (Save worldAccept).2) = true ∧
  Model (doc (Save worldAccept).2) = Model (doc worldAccept) ∧
  ∃ r st, insertReply worldAccept = ((Some r, None), st) ∧
          store (Save worldAccept).2 = st ∧
          SetField "_id" (InsertedID r) (fields (doc worldAccept))
          = (fields (doc (Save worldAccept).2), None).
Proof.
  apply (Save_returned worldAccept None (Save worldAccept).2).
  vm_compute. reflexivity.
Defined.

Lemma Save_twice_exits_witness :
  ∃ w1 w2,
    Save worldAccept = (Returned None, w1) ∧
    Save w1 = (Exited 1, w2) ∧
    doc w2 = doc w1 ∧
    store w2 = [] ∧
    storeOps (trace w2) = (storeOps [] ++ [dropZeroRootID personA])%list.
Proof.
  apply (Save_twice_exits worldAccept
           (mkInsertOneResult (VObjectID identityX)) []
           (<["_id" := VObjectID identityX]> personA));
    reflexivity.
Defined.

Lemma Save_insert_not_rolled_back_witness :
  store (Save worldSealed).2 = (insertReply worldSealed).2 ∧
  ∀ r st f' e,
    insertReply worldSealed = ((Some r, None), st) →
    SetField "_id" (InsertedID r) (fields (doc worldSealed)) = (f', Some e) →
    store (Save worldSealed).2 = st ∧
    persisted (doc (Save worldSealed).2) = false ∧
    fields (doc (Save worldSealed).2) = f'.
Proof. apply (Save_insert_not_rolled_back worldSealed); reflexivity. Defined.

Lemma Save_insert_target_witness :
  storeCalls (trace (Save worldAccept).2)
  = (storeCalls [] ++ [(mkCollectionRef "app" "people", 0)])%list ∧
  acquired (trace (Save worldAccept).2)
  = (acquired [] ++ [(0, 5000000000%Z)])%list.
Proof. apply (Save_insert_target worldAccept); reflexivity. Defined.

Lemma Save_insert_never_sends_zero_id_witness :
  ∃ out : BsonDocument,
    storeOps (trace (Save worldAccept).2) = (storeOps [] ++ [out])%list ∧
    out !! "_id" ≠ Some (VObjectID ZeroObjectID) ∧
    out ⊆ personA ∧
    (size personA ≤ S (size out))%nat.
Proof.
  apply (Save_insert_never_sends_zero_id worldAccept); reflexivity.
Defined.

Lemma Save_after_observers_witness :
  (∃ b, (IsPersisted worldAccept).1 = Returned b ∧
        sameSave (IsPersisted worldAccept).2 worldAccept) ∧
  (∃ c, (Changes worldAccept).1 = Returned c ∧
        sameSave (Changes worldAccept).2 worldAccept) ∧
  (∃ b, (IsChanged worldAccept).1 = Returned b ∧
        sameSave (IsChanged worldAccept).2 worldAccept).
Proof. exact (Save_after_observers worldAccept). Defined.

Lemma Was_panics_witness :
  (Was "" worldStored).1 = Panicked (PanicMessage "NYI -Base.Was_()") ∧
  (∀ v w', Was "" worldStored ≠ (Returned v, w')) ∧
  doc (Was "" worldStored).2 = doc worldStored ∧
  store (Was "" worldStored).2 = store worldStored ∧
  live (Was "" worldStored).2 = live worldStored ∧
  storeOps (trace (Was "" worldStored).2) = storeOps (trace worldStored).
Proof. exact (Was_panics worldStored ""). Defined.

Lemma Save_nil_result_panics_witness :
  ∃ w', Save worldSilent = (Panicked PanicNilDeref, w') ∧
        doc w' = doc worldSilent ∧
        store w' = [] ∧
        storeOps (trace w') = (storeOps [] ++ [dropZeroRootID personA])%list.
Proof. apply (Save_nil_result_panics worldSilent []); reflexivity. Defined.
